(** * lovetrack: the two C headers of the trackpad binding

    The repository consists of two header files, [lovetrack_lib.h] (the
    polling surface) and [trackpad_lib.h] (the callback surface).  Neither
    contains a function body, so the objects of study are the declarations
    themselves: their types, their order, their documentation comments and
    their include guards.  The headers are transcribed declaration by
    declaration into a small abstract syntax of C declarations, and the
    properties below are computed from that transcription. *)

From Stdlib Require Import String Ascii List ZArith Bool Lia.
Import ListNotations.
Open Scope string_scope.

(** ** Abstract syntax of the declarations *)

(** C types as they occur in the headers.  [Tconst t] is the type [t] with a
    [const] qualifier; a parameter list carries the parameter names because
    the documentation comments refer to them. *)
Inductive ctype : Type :=
| Tvoid
| Tint
| Tfloat
| Tnamed (name : string)
| Tconst (t : ctype)
| Tpointer (t : ctype)
| Tfunction (ret : ctype) (args : paramlist)
with paramlist : Type :=
| Pnil
| Pcons (name : string) (t : ctype) (rest : paramlist).

(** One member declaration of a struct, e.g. [float x, y; // Normalized position]. *)
Record member : Type := mkMember {
  m_type : ctype;
  m_names : list string;
  m_note : option string
}.

(** The external declarations of a translation unit (C11 6.9): a declaration
    or a function definition, the latter being the only form with a body. *)
Inductive external_declaration : Type :=
| TypedefStruct (members : list member) (name : string)
| Typedef (t : ctype) (name : string)
| Prototype (ret : ctype) (name : string) (args : paramlist)
| FunctionDefinition (ret : ctype) (name : string) (args : paramlist)
                     (body : list string).

(** A declaration together with the [//] comment lines written above it. *)
Record documented : Type := mkDoc {
  doc : list string;
  decl : external_declaration
}.

(** A header: [#ifndef guard] / [#define guard] / declarations / [#endif]. *)
Record header : Type := mkHeader {
  file : string;
  guard : string;
  contents : list documented
}.

(** ** The two headers *)

(** The anonymous struct typedef'd as [TrackpadFinger]; the text is the same
    in both files and is transcribed once per file below. *)
Definition lovetrack_TrackpadFinger : documented :=
  mkDoc ["A struct to hold the data for a single touch point."]
    (TypedefStruct
       [ mkMember Tint ["id"] None;
         mkMember Tfloat ["x"; "y"] (Some "Normalized position");
         mkMember Tfloat ["vx"; "vy"] (Some "Normalized velocity");
         mkMember Tfloat ["angle"] None;
         mkMember Tfloat ["major_axis"; "minor_axis"] None;
         mkMember Tfloat ["size"] None;
         mkMember Tint ["state"] None ]
       "TrackpadFinger").

(** src/lovetrack_lib.h *)
Definition lovetrack_lib_h : header :=
  mkHeader "lovetrack_lib.h" "lovetrack_lib_h"
    [ lovetrack_TrackpadFinger;
      mkDoc ["Starts the trackpad listening service.";
             "Returns 0 on success, -1 on failure."]
        (Prototype Tint "trackpad_start" Pnil);
      mkDoc ["Polls for the latest trackpad data.";
             "`fingers` should be a pointer to an array of TrackpadFinger structs.";
             "`max_fingers` is the maximum number of fingers the array can hold.";
             "Returns the number of fingers currently on the trackpad."]
        (Prototype Tint "trackpad_poll"
           (Pcons "fingers" (Tpointer (Tnamed "TrackpadFinger"))
              (Pcons "max_fingers" Tint Pnil)));
      mkDoc ["Reset the trackpad state."]
        (Prototype Tvoid "trackpad_reset"
           (Pcons "fingers" (Tpointer (Tnamed "TrackpadFinger"))
              (Pcons "max_fingers" Tint Pnil)));
      mkDoc ["Stops the trackpad listening service."]
        (Prototype Tvoid "trackpad_stop" Pnil) ].

Definition trackpad_TrackpadFinger : documented :=
  mkDoc ["A struct to hold the data for a single touch point."]
    (TypedefStruct
       [ mkMember Tint ["id"] None;
         mkMember Tfloat ["x"; "y"] (Some "Normalized position");
         mkMember Tfloat ["vx"; "vy"] (Some "Normalized velocity");
         mkMember Tfloat ["angle"] None;
         mkMember Tfloat ["major_axis"; "minor_axis"] None;
         mkMember Tfloat ["size"] None;
         mkMember Tint ["state"] None ]
       "TrackpadFinger").

(** The type behind [typedef void ( *TrackpadCallback)(int nFingers,
    const TrackpadFinger* fingers);]. *)
Definition TrackpadCallback_type : ctype :=
  Tpointer
    (Tfunction Tvoid
       (Pcons "nFingers" Tint
          (Pcons "fingers" (Tpointer (Tconst (Tnamed "TrackpadFinger"))) Pnil))).

(** src/trackpad_lib.h *)
Definition trackpad_lib_h : header :=
  mkHeader "trackpad_lib.h" "trackpad_lib_h"
    [ trackpad_TrackpadFinger;
      mkDoc ["The callback function that will be invoked with trackpad data.";
             "It receives an array of TrackpadFinger structs and the number of fingers."]
        (Typedef TrackpadCallback_type "TrackpadCallback");
      mkDoc ["Starts the trackpad listening service.";
             "You must provide a callback function to receive the data."]
        (Prototype Tvoid "trackpad_start"
           (Pcons "callback" (Tnamed "TrackpadCallback") Pnil));
      mkDoc ["Stops the trackpad listening service."]
        (Prototype Tvoid "trackpad_stop" Pnil) ].

(** The repository: the polling surface and the callback surface. *)
Definition surfaces : list header := [lovetrack_lib_h; trackpad_lib_h].

(** ** Reading the declarations *)

Fixpoint ctype_eqb (a b : ctype) {struct a} : bool :=
  match a, b with
  | Tvoid, Tvoid => true
  | Tint, Tint => true
  | Tfloat, Tfloat => true
  | Tnamed n, Tnamed m => String.eqb n m
  | Tconst t, Tconst u => ctype_eqb t u
  | Tpointer t, Tpointer u => ctype_eqb t u
  | Tfunction r p, Tfunction s q => ctype_eqb r s && paramlist_eqb p q
  | _, _ => false
  end
with paramlist_eqb (p q : paramlist) {struct p} : bool :=
  match p, q with
  | Pnil, Pnil => true
  | Pcons _ t p', Pcons _ u q' => ctype_eqb t u && paramlist_eqb p' q'
  | _, _ => false
  end.

Fixpoint params (p : paramlist) : list (string * ctype) :=
  match p with
  | Pnil => []
  | Pcons n t rest => (n, t) :: params rest
  end.

(** [float x, y;] declares two fields of type [float], in that order. *)
Definition member_fields (m : member) : list (string * ctype) :=
  map (fun n => (n, m_type m)) (m_names m).

Definition struct_fields (ms : list member) : list (string * ctype) :=
  flat_map member_fields ms.

(** The fields of the struct that a header typedefs under [name]. *)
Fixpoint find_struct (name : string) (ds : list documented)
  : option (list (string * ctype)) :=
  match ds with
  | [] => None
  | d :: rest =>
      match decl d with
      | TypedefStruct ms n =>
          if String.eqb n name then Some (struct_fields ms)
          else find_struct name rest
      | _ => find_struct name rest
      end
  end.

Definition TrackpadFinger_fields (h : header) : option (list (string * ctype)) :=
  find_struct "TrackpadFinger" (contents h).

(** A function declared by a header: its comment, return type, name and
    parameters. *)
Record operation : Type := mkOp {
  op_doc : list string;
  op_ret : ctype;
  op_name : string;
  op_args : paramlist
}.

Fixpoint operations_of (ds : list documented) : list operation :=
  match ds with
  | [] => []
  | d :: rest =>
      match decl d with
      | Prototype r n a => mkOp (doc d) r n a :: operations_of rest
      | FunctionDefinition r n a _ => mkOp (doc d) r n a :: operations_of rest
      | _ => operations_of rest
      end
  end.

Definition operations (h : header) : list operation := operations_of (contents h).

Definition operation_names (h : header) : list string :=
  map op_name (operations h).

Fixpoint find_operation (name : string) (ops : list operation) : option operation :=
  match ops with
  | [] => None
  | o :: rest => if String.eqb (op_name o) name then Some o
                 else find_operation name rest
  end.

Definition lookup (h : header) (name : string) : option operation :=
  find_operation name (operations h).

(** The struct typedefs and the other typedefs of a header. *)
Fixpoint struct_typedefs (ds : list documented) : list string :=
  match ds with
  | [] => []
  | d :: rest =>
      match decl d with
      | TypedefStruct _ n => n :: struct_typedefs rest
      | _ => struct_typedefs rest
      end
  end.

Fixpoint plain_typedefs (ds : list documented) : list (string * ctype) :=
  match ds with
  | [] => []
  | d :: rest =>
      match decl d with
      | Typedef t n => (n, t) :: plain_typedefs rest
      | _ => plain_typedefs rest
      end
  end.

(** The bodies present in a header: one entry per function definition. *)
Fixpoint function_bodies (ds : list documented) : list (string * list string) :=
  match ds with
  | [] => []
  | d :: rest =>
      match decl d with
      | FunctionDefinition _ n _ b => (n, b) :: function_bodies rest
      | _ => function_bodies rest
      end
  end.

Definition has_body (d : documented) : bool :=
  match decl d with
  | FunctionDefinition _ _ _ _ => true
  | _ => false
  end.

Definition is_void (t : ctype) : bool :=
  match t with Tvoid => true | _ => false end.

Definition is_pointer (t : ctype) : bool :=
  match t with Tpointer _ => true | _ => false end.

(** ** Reading the documentation comments

    The only statement of what an operation returns is the comment above its
    declaration, so the documented return contract is read from the comment
    lines: a line that starts with "Returns" and lists [<integer> on <outcome>]
    pairs documents status codes. *)

Definition is_separator (c : ascii) : bool :=
  (Ascii.eqb c " " || Ascii.eqb c "," || Ascii.eqb c ".")%char.

(** Words of a comment line; blanks, commas and full stops separate them. *)
Fixpoint split_words (cur : string) (s : string) : list string :=
  match s with
  | EmptyString => if String.eqb cur "" then [] else [cur]
  | String c s' =>
      if is_separator c then
        if String.eqb cur "" then split_words "" s'
        else cur :: split_words "" s'
      else split_words (cur ++ String c "") s'
  end.

Definition digit_of (c : ascii) : option N :=
  let n := N_of_ascii c in
  if ((48 <=? n) && (n <=? 57))%N then Some (n - 48)%N else None.

Fixpoint parse_digits (s : string) (acc : N) : option N :=
  match s with
  | EmptyString => Some acc
  | String c s' =>
      match digit_of c with
      | Some d => parse_digits s' (10 * acc + d)%N
      | None => None
      end
  end.

(** A decimal integer literal with an optional minus sign. *)
Definition parse_int (s : string) : option Z :=
  match s with
  | EmptyString => None
  | String c s' =>
      if Ascii.eqb c "-"%char then
        match s' with
        | EmptyString => None
        | _ => option_map (fun n => Z.opp (Z.of_N n)) (parse_digits s' 0%N)
        end
      else option_map Z.of_N (parse_digits s 0%N)
  end.

(** The [<integer> on <outcome>] pairs among the words of a line. *)
Fixpoint status_pairs (ws : list string) : list (Z * string) :=
  match ws with
  | [] => []
  | v :: rest =>
      match rest with
      | kw :: outcome :: _ =>
          if String.eqb kw "on" then
            match parse_int v with
            | Some z => (z, outcome) :: status_pairs rest
            | None => status_pairs rest
            end
          else status_pairs rest
      | _ => status_pairs rest
      end
  end.

Definition line_codes (l : string) : list (Z * string) :=
  if String.prefix "Returns" l then status_pairs (split_words "" l) else [].

(** The status codes an operation documents, with the outcome each stands for. *)
Definition documented_codes (o : operation) : list (Z * string) :=
  flat_map line_codes (op_doc o).

Definition is_failure (outcome : string) : bool :=
  String.eqb outcome "failure" || String.eqb outcome "error".

(** The values an operation documents as reporting a failure. *)
Definition error_values (o : operation) : list Z :=
  map fst (filter (fun p => is_failure (snd p)) (documented_codes o)).

Definition lower (c : ascii) : ascii :=
  let n := N_of_ascii c in
  if ((65 <=? n) && (n <=? 90))%N then ascii_of_N (n + 32) else c.

(** [occurs needle hay]: [needle] is a substring of [hay], letter case ignored
    in [hay]. *)
Fixpoint occurs_lower (needle hay : string) : bool :=
  match hay with
  | EmptyString => String.prefix needle ""
  | String _ hay' => String.prefix needle hay || occurs_lower needle hay'
  end.

Fixpoint lowercase (s : string) : string :=
  match s with
  | EmptyString => EmptyString
  | String c s' => String (lower c) (lowercase s')
  end.

Definition occurs (needle hay : string) : bool :=
  occurs_lower needle (lowercase hay).

(** The comment speaks of failing or of an error at all. *)
Definition mentions_failure (o : operation) : bool :=
  existsb (fun l => occurs "fail" l || occurs "error" l) (op_doc o).

(** An operation has an error signal when it has a return channel and its
    comment designates at least one returned value as a failure. *)
Definition has_error_signal (o : operation) : bool :=
  negb (is_void (op_ret o)) &&
  match error_values o with [] => false | _ :: _ => true end.

(** Every operation of every surface, tagged with the file declaring it. *)
Definition all_operations : list (string * operation) :=
  flat_map (fun h => map (fun o => (file h, o)) (operations h)) surfaces.

(** ** Buffers in the signatures *)

(** The type of a pointer to (possibly const) [TrackpadFinger]. *)
Definition is_finger_pointer (t : ctype) : bool :=
  match t with
  | Tpointer (Tnamed n) => String.eqb n "TrackpadFinger"
  | Tpointer (Tconst (Tnamed n)) => String.eqb n "TrackpadFinger"
  | _ => false
  end.

(** The operation touches finger data: a parameter or the result mentions
    [TrackpadFinger] records. *)
Definition touches_fingers (o : operation) : bool :=
  is_finger_pointer (op_ret o) ||
  existsb (fun p => is_finger_pointer (snd p)) (params (op_args o)).

(** A pointer parameter to a pointer is how a C function hands out a buffer
    of its own through an argument. *)
Definition is_out_pointer (t : ctype) : bool :=
  match t with
  | Tpointer (Tpointer _) => true
  | Tpointer (Tconst (Tpointer _)) => true
  | _ => false
  end.

(** The operation can pass a buffer of the library's to its caller: it
    returns a pointer or fills in a caller's pointer. *)
Definition hands_out_buffer (o : operation) : bool :=
  is_pointer (op_ret o) ||
  existsb (fun p => is_out_pointer (snd p)) (params (op_args o)).

(** The parameters are a writable [TrackpadFinger] array followed by its
    capacity as an [int]. *)
Definition takes_array_and_capacity (o : operation) : bool :=
  match op_args o with
  | Pcons _ (Tpointer (Tnamed n)) (Pcons _ Tint Pnil) =>
      String.eqb n "TrackpadFinger"
  | _ => false
  end.

(** ** Lvalues reached through a parameter

    What a function body may write through a pointer parameter is decided by
    the types alone (C11 6.3.2.1, 6.5.2.3, 6.5.16): [*p] and [p[i]] have the
    pointed-to type, [e.f] has the type of the member [f], const-qualified
    when [e] is, and the left operand of an assignment must be a modifiable
    lvalue, which a const-qualified one is not. *)

Inductive access : Type :=
| Deref
| Index (i : Z)
| Member (f : string).

Definition is_const (t : ctype) : bool :=
  match t with Tconst _ => true | _ => false end.

Definition unqualified (t : ctype) : ctype :=
  match t with Tconst u => u | _ => t end.

Definition qualify (c : bool) (t : ctype) : ctype :=
  if c then Tconst (unqualified t) else t.

Fixpoint field_type (f : string) (fs : list (string * ctype)) : option ctype :=
  match fs with
  | [] => None
  | (n, t) :: rest => if String.eqb n f then Some t else field_type f rest
  end.

(** The type of [e.a] (one access applied to an expression of type [t]), the
    struct names being resolved in header [h]. *)
Definition access_type (h : header) (t : ctype) (a : access) : option ctype :=
  match a with
  | Deref | Index _ =>
      match unqualified t with
      | Tpointer u => Some u
      | _ => None
      end
  | Member f =>
      match unqualified t with
      | Tnamed s =>
          match find_struct s (contents h) with
          | Some fs =>
              match field_type f fs with
              | Some ft => Some (qualify (is_const t) ft)
              | None => None
              end
          | None => None
          end
      | _ => None
      end
  end.

Fixpoint lvalue_type (h : header) (t : ctype) (path : list access)
  : option ctype :=
  match path with
  | [] => Some t
  | a :: rest =>
      match access_type h t a with
      | Some u => lvalue_type h u rest
      | None => None
      end
  end.

(** An assignment to the lvalue [path] applied to a parameter of type [t] is
    accepted: the lvalue is well typed and not const-qualified. *)
Definition modifiable (h : header) (t : ctype) (path : list access) : bool :=
  match lvalue_type h t path with
  | Some u => negb (is_const u)
  | None => false
  end.

(** The parameters of the function type behind a callback typedef. *)
Definition callback_params (t : ctype) : list (string * ctype) :=
  match t with
  | Tpointer (Tfunction _ ps) => params ps
  | _ => []
  end.

Definition callback_result (t : ctype) : option ctype :=
  match t with
  | Tpointer (Tfunction r _) => Some r
  | _ => None
  end.

Definition is_scalar (t : ctype) : bool :=
  match t with Tint | Tfloat => true | _ => false end.

(** ** Binding headers in one translation unit *)

(** What a name is bound to once its declaration has been processed. *)
Inductive binding : Type :=
| BoundStruct (fields : list (string * ctype))
| BoundTypedef (t : ctype)
| BoundFunction (ret : ctype) (args : paramlist).

Inductive diagnostic : Type :=
| Redefinition (name : string)
| ConflictingTypes (name : string).

Record unit_state : Type := mkUnit {
  macros : list string;
  symbols : list (string * binding);
  diagnostics : list diagnostic
}.

Definition empty_unit : unit_state := mkUnit [] [] [].

Fixpoint bound (name : string) (syms : list (string * binding)) : option binding :=
  match syms with
  | [] => None
  | (n, b) :: rest => if String.eqb n name then Some b else bound name rest
  end.

(** Under the default argument promotions a [float] argument is passed as
    [double], so a [float] parameter does not match an empty parameter list. *)
Definition self_promoting (t : ctype) : bool :=
  match t with Tfloat => false | _ => true end.

(** Parameter lists of two declarations of one function (C11 6.7.6.3 p15).
    The headers write [()], an empty list that says nothing about the
    parameters: it agrees with any list of self-promoting parameters. *)
Definition compatible_params (p q : paramlist) : bool :=
  match p, q with
  | Pnil, _ => forallb (fun x => self_promoting (snd x)) (params q)
  | _, Pnil => forallb (fun x => self_promoting (snd x)) (params p)
  | _, _ => paramlist_eqb p q
  end.

(** Two function types are compatible when the return types are and the
    parameter lists agree. *)
Definition compatible_functions (r1 : ctype) (p1 : paramlist)
                                (r2 : ctype) (p2 : paramlist) : bool :=
  ctype_eqb r1 r2 && compatible_params p1 p2.

Definition report (d : diagnostic) (u : unit_state) : unit_state :=
  mkUnit (macros u) (symbols u) (diagnostics u ++ [d]).

Definition bind_symbol (n : string) (b : binding) (u : unit_state) : unit_state :=
  mkUnit (macros u) (symbols u ++ [(n, b)]) (diagnostics u).

Definition declare_function (r : ctype) (n : string) (a : paramlist)
                            (u : unit_state) : unit_state :=
  match bound n (symbols u) with
  | None => bind_symbol n (BoundFunction r a) u
  | Some (BoundFunction r' a') =>
      if compatible_functions r' a' r a then u else report (ConflictingTypes n) u
  | Some _ => report (Redefinition n) u
  end.

(** One declaration processed.  A struct specifier with a member list
    declares a new type each time it is met (C11 6.7.2.1 p8), and a typedef
    name may be declared again only for the same type (C11 6.7 p3), so a
    second [typedef struct { ... } T;] is always a redefinition of [T]. *)
Definition declare (d : documented) (u : unit_state) : unit_state :=
  match decl d with
  | TypedefStruct ms n =>
      match bound n (symbols u) with
      | None => bind_symbol n (BoundStruct (struct_fields ms)) u
      | Some _ => report (Redefinition n) u
      end
  | Typedef t n =>
      match bound n (symbols u) with
      | None => bind_symbol n (BoundTypedef t) u
      | Some (BoundTypedef t') =>
          if ctype_eqb t' t then u else report (Redefinition n) u
      | Some _ => report (Redefinition n) u
      end
  | Prototype r n a => declare_function r n a u
  | FunctionDefinition r n a _ => declare_function r n a u
  end.

(** [#include] of a header: skipped when its guard macro is already defined,
    otherwise the guard is defined and the declarations are processed in
    order. *)
Definition include (u : unit_state) (h : header) : unit_state :=
  if existsb (String.eqb (guard h)) (macros u) then u
  else fold_left (fun st d => declare d st) (contents h)
         (mkUnit (macros u ++ [guard h]) (symbols u) (diagnostics u)).

Definition bind_headers (hs : list header) : unit_state :=
  fold_left include hs empty_unit.

(** The headers can be bound together when processing them raises nothing. *)
Definition bindable (hs : list header) : bool :=
  match diagnostics (bind_headers hs) with [] => true | _ :: _ => false end.

(** The guard macro [g] is defined in the unit. *)
Definition seen (g : string) (u : unit_state) : bool :=
  existsb (String.eqb g) (macros u).

(** The states a unit can be in after including the repository's headers any
    number of times in any order: nothing yet, one surface, or both surfaces
    in one of the two orders. *)
Definition reached (u : unit_state) : Prop :=
  u = empty_unit
  \/ u = bind_headers [lovetrack_lib_h]
  \/ u = bind_headers [trackpad_lib_h]
  \/ u = bind_headers [lovetrack_lib_h; trackpad_lib_h]
  \/ u = bind_headers [trackpad_lib_h; lovetrack_lib_h].

(** A type from which every lvalue is const: the const touch record or a
    const scalar member of it. *)
Definition frozen (t : ctype) : bool :=
  match t with
  | Tconst (Tnamed n) => String.eqb n "TrackpadFinger"
  | Tconst u => is_scalar u
  | _ => false
  end.

(** ** The polling operation behind its declaration *)

Module Native.

Section Polling.

(** The C [float] values are carried around and never computed with. *)
Variable float : Type.

(** The touch record, field for field as the struct declares it. *)
Record TrackpadFinger : Type := mkFinger {
  id : Z;
  x : float;
  y : float;
  vx : float;
  vy : float;
  angle : float;
  major_axis : float;
  minor_axis : float;
  size : float;
  state : Z
}.

(** What the array holds after a poll that found more touches than the
    array has room for; the spec leaves this truncation unspecified. *)
Variable truncated :
  list TrackpadFinger -> list TrackpadFinger -> Z -> list TrackpadFinger.

(** The touches written over the leading slots of the caller's array. *)
Fixpoint retrieve (touches fingers : list TrackpadFinger)
  : list TrackpadFinger :=
  match touches, fingers with
  | t :: ts, _ :: slots => t :: retrieve ts slots
  | _, _ => fingers
  end.

(** Modelled from the spec: the body of [trackpad_poll], which the headers
    declare and do not define.  By the spec it is a caller-driven retrieval
    into a caller-supplied fixed-capacity array that returns the count of
    active touches; by the header comment [fingers] is the caller's array,
    [max_fingers] the number of records it can hold, and the result the
    number of fingers currently on the trackpad.  [active] stands for the
    touches the native service currently reports.  The result is the
    caller's array after the call, paired with the returned count. *)
Definition trackpad_poll (active fingers : list TrackpadFinger)
                         (max_fingers : Z) : list TrackpadFinger * Z :=
  let count := Z.of_nat (length active) in
  (if (count <=? max_fingers)%Z then retrieve active fingers
   else truncated active fingers max_fingers,
   count).

End Polling.

Arguments retrieve {float} touches fingers.
Arguments trackpad_poll {float} truncated active fingers max_fingers.

End Native.

(** ** Declaration before use *)

(** The typedef names a type mentions. *)
Fixpoint named_in (t : ctype) : list string :=
  match t with
  | Tvoid | Tint | Tfloat => []
  | Tnamed n => [n]
  | Tconst u => named_in u
  | Tpointer u => named_in u
  | Tfunction r ps => named_in r ++ named_in_params ps
  end
with named_in_params (ps : paramlist) : list string :=
  match ps with
  | Pnil => []
  | Pcons _ t rest => named_in t ++ named_in_params rest
  end.

(** The type names a declaration refers to. *)
Definition uses (d : external_declaration) : list string :=
  match d with
  | TypedefStruct ms _ => flat_map (fun m => named_in (m_type m)) ms
  | Typedef t _ => named_in t
  | Prototype r _ a => named_in r ++ named_in_params a
  | FunctionDefinition r _ a _ => named_in r ++ named_in_params a
  end.

(** The type names a declaration makes available to what follows it. *)
Definition introduces (d : external_declaration) : list string :=
  match d with
  | TypedefStruct _ n => [n]
  | Typedef _ n => [n]
  | _ => []
  end.

Definition known (n : string) (names : list string) : bool :=
  existsb (String.eqb n) names.

(** The type names used before they are declared, the declarations being
    read top to bottom with [names] declared beforehand.  Neither header has
    an [#include], so a header read on its own starts from no name. *)
Fixpoint undeclared (names : list string) (ds : list documented)
  : list string :=
  match ds with
  | [] => []
  | d :: rest =>
      filter (fun n => negb (known n names)) (uses (decl d))
      ++ undeclared (names ++ introduces (decl d)) rest
  end.

(** * Properties of the declared surfaces *)

(** Destructs membership in a list that computes to explicit elements. *)
Ltac each_member H :=
  vm_compute in H;
  repeat (destruct H as [H | H]; [ inversion H; subst | ]);
  [ .. | contradiction ].

(** ** The touch record *)

Lemma field_type_forallb (P : ctype -> bool) (f : string) :
  forall (fs : list (string * ctype)) (t : ctype),
    forallb (fun p => P (snd p)) fs = true ->
    field_type f fs = Some t -> P t = true.
Proof.
  induction fs as [| [n u] fs IH]; intros t Hall Hf; simpl in *.
  - discriminate.
  - apply andb_true_iff in Hall as [Hu Hrest].
    destruct (String.eqb n f).
    + injection Hf as <-. exact Hu.
    + now apply IH.
Qed.

(** C3: the poll-based and the callback-based header declare the same touch
    record: in both, [TrackpadFinger] has exactly the fields [id] (int), [x],
    [y], [vx], [vy], [angle], [major_axis], [minor_axis], [size] (float) and
    [state] (int), in this order and with these types; the member
    declarations are written identically as well. *)
Theorem TrackpadFinger_identical_in_both_headers :
  TrackpadFinger_fields lovetrack_lib_h =
    Some [ ("id", Tint); ("x", Tfloat); ("y", Tfloat); ("vx", Tfloat);
           ("vy", Tfloat); ("angle", Tfloat); ("major_axis", Tfloat);
           ("minor_axis", Tfloat); ("size", Tfloat); ("state", Tint) ]
  /\ TrackpadFinger_fields trackpad_lib_h = TrackpadFinger_fields lovetrack_lib_h
  /\ decl trackpad_TrackpadFinger = decl lovetrack_TrackpadFinger
  /\ struct_typedefs (contents lovetrack_lib_h) = ["TrackpadFinger"]
  /\ struct_typedefs (contents trackpad_lib_h) = ["TrackpadFinger"].
Proof. repeat split. Qed.

(** ** Shape of the two surfaces *)

(** C4, as stated, fails on the callback header: it declares two functions,
    not four. *)
Lemma callback_surface_has_two_functions :
  operation_names trackpad_lib_h = ["trackpad_start"; "trackpad_stop"]
  /\ Nat.eqb (length (operations trackpad_lib_h)) 4 = false.
Proof. split; reflexivity. Qed.

(** C4 (amended): the polling surface consists of the struct declaration plus
    four functions ([trackpad_start], [trackpad_poll], [trackpad_reset],
    [trackpad_stop]); the callback surface consists of the struct
    declaration, the [TrackpadCallback] function-pointer typedef and two
    functions ([trackpad_start], [trackpad_stop]).  Neither header declares
    anything else. *)
Theorem surfaces_struct_and_functions :
  (struct_typedefs (contents lovetrack_lib_h) = ["TrackpadFinger"]
   /\ plain_typedefs (contents lovetrack_lib_h) = []
   /\ operation_names lovetrack_lib_h =
        ["trackpad_start"; "trackpad_poll"; "trackpad_reset"; "trackpad_stop"]
   /\ length (contents lovetrack_lib_h) = 1 + 4)
  /\
  (struct_typedefs (contents trackpad_lib_h) = ["TrackpadFinger"]
   /\ plain_typedefs (contents trackpad_lib_h) =
        [("TrackpadCallback", TrackpadCallback_type)]
   /\ operation_names trackpad_lib_h = ["trackpad_start"; "trackpad_stop"]
   /\ length (contents trackpad_lib_h) = 1 + 1 + 2).
Proof. repeat split. Qed.

(** C6: no function has an implementation body.  Every external declaration
    of both headers is a struct typedef, a typedef or a prototype; the
    declared operations are [trackpad_start], [trackpad_poll],
    [trackpad_reset], [trackpad_stop] in the polling header and
    [trackpad_start], [trackpad_stop] in the callback header, and none of
    them comes with a body. *)
Theorem no_function_has_a_body :
  (forall h d, In h surfaces -> In d (contents h) -> has_body d = false)
  /\ function_bodies (contents lovetrack_lib_h) = []
  /\ function_bodies (contents trackpad_lib_h) = []
  /\ operation_names lovetrack_lib_h =
       ["trackpad_start"; "trackpad_poll"; "trackpad_reset"; "trackpad_stop"]
  /\ operation_names trackpad_lib_h = ["trackpad_start"; "trackpad_stop"].
Proof.
  split; [ | repeat split ].
  intros h d Hh Hd.
  destruct Hh as [<- | [<- | []]];
    simpl in Hd; repeat (destruct Hd as [<- | Hd]; [ reflexivity | ]);
    contradiction.
Qed.

Lemma no_function_has_a_body_witness :
  In lovetrack_lib_h surfaces
  /\ In (nth 2 (contents lovetrack_lib_h) lovetrack_TrackpadFinger)
        (contents lovetrack_lib_h)
  /\ has_body (nth 2 (contents lovetrack_lib_h) lovetrack_TrackpadFinger) = false.
Proof.
  assert (Hh : In lovetrack_lib_h surfaces) by (left; reflexivity).
  assert (Hd : In (nth 2 (contents lovetrack_lib_h) lovetrack_TrackpadFinger)
                  (contents lovetrack_lib_h))
    by (simpl; right; right; left; reflexivity).
  split; [ exact Hh | split; [ exact Hd | ] ].
  exact (proj1 no_function_has_a_body _ _ Hh Hd).
Defined.

(** ** Return types and error signals *)

(** C5, as stated, fails on [trackpad_poll]: it is an operation other than
    the polling [trackpad_start], and it is declared [int], not [void]. *)
Lemma trackpad_poll_is_not_void :
  option_map op_ret (lookup lovetrack_lib_h "trackpad_poll") = Some Tint
  /\ option_map (fun o => is_void (op_ret o))
       (lookup lovetrack_lib_h "trackpad_poll") = Some false.
Proof. split; reflexivity. Qed.

(** C5 (amended): every declared operation other than the polling variant's
    [trackpad_start] and [trackpad_poll] is declared with return type [void]
    and documents no error value; [trackpad_poll] is declared [int], its
    comment gives the result as the number of fingers currently on the
    trackpad, and it documents no error value either. *)
Theorem other_operations_are_void :
  (forall f o,
      In (f, o) all_operations ->
      (f, op_name o) <> ("lovetrack_lib.h", "trackpad_start") ->
      (f, op_name o) <> ("lovetrack_lib.h", "trackpad_poll") ->
      op_ret o = Tvoid /\ has_error_signal o = false
      /\ mentions_failure o = false)
  /\ (exists o,
        lookup lovetrack_lib_h "trackpad_poll" = Some o
        /\ op_ret o = Tint
        /\ In "Returns the number of fingers currently on the trackpad."
              (op_doc o)
        /\ error_values o = []
        /\ mentions_failure o = false).
Proof.
  split.
  - intros f o Hin Hstart Hpoll.
    each_member Hin; try (repeat split; reflexivity).
    + exfalso. apply Hstart. reflexivity.
    + exfalso. apply Hpoll. reflexivity.
  - eexists. split; [ reflexivity | ].
    repeat split. simpl. right. right. right. left. reflexivity.
Qed.

Lemma other_operations_are_void_witness :
  exists o,
    lookup lovetrack_lib_h "trackpad_reset" = Some o
    /\ In ("lovetrack_lib.h", o) all_operations
    /\ op_ret o = Tvoid /\ has_error_signal o = false
    /\ mentions_failure o = false.
Proof.
  eexists. split; [ reflexivity | ].
  match goal with |- In (?f, ?o) _ /\ _ =>
    assert (Hin : In (f, o) all_operations)
      by (simpl; right; right; left; reflexivity);
    split; [ exact Hin | ];
    apply (proj1 other_operations_are_void f o Hin)
  end.
  - simpl. intros H. inversion H.
  - simpl. intros H. inversion H.
Defined.

(** C7: of the two start operations exactly one, the polling one, returns a
    status code (an [int], documented as 0 on success and -1 on failure, and
    it takes no parameter); the other one, of the callback surface, takes one
    parameter of type [TrackpadCallback], the function-pointer type through
    which the data is delivered, and returns nothing. *)
Theorem one_start_returns_status_other_takes_callback :
  option_map op_ret (lookup lovetrack_lib_h "trackpad_start") = Some Tint
  /\ option_map (fun o => params (op_args o))
       (lookup lovetrack_lib_h "trackpad_start") = Some []
  /\ option_map documented_codes (lookup lovetrack_lib_h "trackpad_start")
     = Some [(0%Z, "success"); ((-1)%Z, "failure")]
  /\ option_map op_ret (lookup trackpad_lib_h "trackpad_start") = Some Tvoid
  /\ option_map (fun o => params (op_args o))
       (lookup trackpad_lib_h "trackpad_start")
     = Some [("callback", Tnamed "TrackpadCallback")]
  /\ plain_typedefs (contents trackpad_lib_h)
     = [("TrackpadCallback", TrackpadCallback_type)]
  /\ map fst
       (filter (fun p => String.eqb (op_name (snd p)) "trackpad_start"
                         && negb (is_void (op_ret (snd p))))
               all_operations)
     = ["lovetrack_lib.h"]
  /\ map fst
       (filter (fun p => String.eqb (op_name (snd p)) "trackpad_start"
                         && existsb
                              (fun q => ctype_eqb (snd q) (Tnamed "TrackpadCallback"))
                              (params (op_args (snd p))))
               all_operations)
     = ["trackpad_lib.h"].
Proof. repeat split. Qed.

(** C1: in the polling variant [trackpad_start] is the only operation of
    either declared surface with an error signal.  It is declared [int] and
    its comment documents 0 for success and -1 for failure; -1 is the only
    value any operation documents as a failure, and no other operation's
    comment speaks of failing or of an error at all. *)
Theorem only_polling_start_has_error_signal :
  (exists o,
      lookup lovetrack_lib_h "trackpad_start" = Some o
      /\ op_ret o = Tint
      /\ In "Returns 0 on success, -1 on failure." (op_doc o)
      /\ documented_codes o = [(0%Z, "success"); ((-1)%Z, "failure")]
      /\ has_error_signal o = true)
  /\ (forall f o,
        In (f, o) all_operations ->
        has_error_signal o = true \/ mentions_failure o = true ->
        f = "lovetrack_lib.h" /\ op_name o = "trackpad_start")
  /\ (forall f o v,
        In (f, o) all_operations -> In v (error_values o) -> v = (-1)%Z)
  /\ flat_map (fun p => error_values (snd p)) all_operations = [(-1)%Z].
Proof.
  split; [ | split; [ | split ] ].
  - eexists. split; [ reflexivity | ].
    repeat split. simpl. right. left. reflexivity.
  - intros f o Hin Hsig.
    each_member Hin; try (split; reflexivity);
      destruct Hsig as [Hsig | Hsig]; vm_compute in Hsig; discriminate.
  - intros f o v Hin Hv.
    each_member Hin; vm_compute in Hv;
      try contradiction; destruct Hv as [<- | []]; reflexivity.
  - reflexivity.
Qed.

Lemma only_polling_start_has_error_signal_witness :
  exists o,
    lookup lovetrack_lib_h "trackpad_start" = Some o
    /\ In ("lovetrack_lib.h", o) all_operations
    /\ has_error_signal o = true
    /\ In (-1)%Z (error_values o)
    /\ op_name o = "trackpad_start".
Proof.
  eexists. split; [ reflexivity | ].
  match goal with |- In (?f, ?o) _ /\ _ =>
    assert (Hin : In (f, o) all_operations) by (simpl; left; reflexivity);
    assert (Hsig : has_error_signal o = true) by reflexivity;
    assert (Hv : In (-1)%Z (error_values o)) by (simpl; left; reflexivity);
    split; [ exact Hin | split; [ exact Hsig | split; [ exact Hv | ] ] ];
    pose proof (proj1 (proj2 (proj2 only_polling_start_has_error_signal))
                  f o (-1)%Z Hin Hv) as _;
    exact (proj2 (proj1 (proj2 only_polling_start_has_error_signal)
                    f o Hin (or_introl Hsig)))
  end.
Defined.

(** ** Buffers *)

(** C8: buffer ownership is caller-provided throughout the polling surface.
    The operations whose signature touches finger data are [trackpad_poll]
    and [trackpad_reset]; each takes a pointer to a (writable)
    [TrackpadFinger] array together with its capacity [max_fingers]; no
    declared operation returns a pointer or fills in a pointer of the
    caller's, so none hands out a buffer of the library's; and the record
    itself holds scalars only, so no pointer travels inside it. *)
Theorem polling_buffers_are_caller_provided :
  map op_name (filter touches_fingers (operations lovetrack_lib_h))
    = ["trackpad_poll"; "trackpad_reset"]
  /\ (forall o,
        In o (operations lovetrack_lib_h) -> touches_fingers o = true ->
        takes_array_and_capacity o = true
        /\ params (op_args o) =
             [("fingers", Tpointer (Tnamed "TrackpadFinger"));
              ("max_fingers", Tint)])
  /\ (forall f o, In (f, o) all_operations -> hands_out_buffer o = false)
  /\ (forall h fs,
        In h surfaces -> TrackpadFinger_fields h = Some fs ->
        forallb (fun p => is_scalar (snd p)) fs = true).
Proof.
  split; [ reflexivity | split; [ | split ] ].
  - intros o Hin Ht.
    each_member Hin; try (vm_compute in Ht; discriminate);
      split; reflexivity.
  - intros f o Hin. each_member Hin; reflexivity.
  - intros h fs Hh Hfs.
    destruct Hh as [<- | [<- | []]]; vm_compute in Hfs;
      injection Hfs as <-; reflexivity.
Qed.

Lemma polling_buffers_are_caller_provided_witness :
  exists o,
    lookup lovetrack_lib_h "trackpad_reset" = Some o
    /\ In o (operations lovetrack_lib_h)
    /\ touches_fingers o = true
    /\ takes_array_and_capacity o = true
    /\ hands_out_buffer o = false.
Proof.
  eexists. split; [ reflexivity | ].
  match goal with |- In ?o _ /\ _ =>
    assert (Hin : In o (operations lovetrack_lib_h))
      by (simpl; right; right; left; reflexivity);
    assert (Ht : touches_fingers o = true) by reflexivity;
    assert (Hall : In ("lovetrack_lib.h", o) all_operations)
      by (simpl; right; right; left; reflexivity);
    split; [ exact Hin | split; [ exact Ht | split ] ];
    [ exact (proj1 (proj1 (proj2 polling_buffers_are_caller_provided) o Hin Ht))
    | exact (proj1 (proj2 (proj2 polling_buffers_are_caller_provided)) _ o Hall) ]
  end.
Defined.

(** ** What the callback may write *)

Lemma frozen_is_const (t : ctype) : frozen t = true -> is_const t = true.
Proof. destruct t; simpl; intros H; try discriminate; reflexivity. Qed.

(** Every access from a frozen type of the callback header yields a frozen
    type again: const-ness is inherited by the members, and the members are
    scalars, from which nothing further is reached. *)
Lemma frozen_access (t u : ctype) (a : access) :
  frozen t = true -> access_type trackpad_lib_h t a = Some u -> frozen u = true.
Proof.
  destruct t as [ | | | | t | | ]; simpl; try discriminate.
  destruct t as [ | | | n | | | ]; simpl; try discriminate;
    intros Hf Ha; destruct a as [ | i | f ]; simpl in Ha; try discriminate.
  apply String.eqb_eq in Hf. subst n.
  match type of Ha with
  | context [field_type f ?fs] =>
      destruct (field_type f fs) as [ft | ] eqn:Hft; [ | discriminate ];
      assert (Hs : is_scalar ft = true)
        by (apply (field_type_forallb is_scalar f fs); [ reflexivity | exact Hft ])
  end.
  injection Ha as <-.
  destruct ft; simpl in Hs; try discriminate; reflexivity.
Qed.

Lemma frozen_path (path : list access) :
  forall t u,
    frozen t = true -> lvalue_type trackpad_lib_h t path = Some u ->
    is_const u = true.
Proof.
  induction path as [| a path IH]; intros t u Hf Hp; simpl in Hp.
  - injection Hp as <-. now apply frozen_is_const.
  - destruct (access_type trackpad_lib_h t a) as [v | ] eqn:Ha;
      [ | discriminate ].
    apply (IH v u); [ | exact Hp ].
    exact (frozen_access t v a Hf Ha).
Qed.

(** The array handed to the polling operations is writable, record by record
    and field by field. *)
Lemma polling_array_is_writable (i : Z) :
  modifiable lovetrack_lib_h (Tpointer (Tnamed "TrackpadFinger")) [Index i] = true
  /\ modifiable lovetrack_lib_h (Tpointer (Tnamed "TrackpadFinger"))
       [Index i; Member "x"] = true
  /\ modifiable lovetrack_lib_h (Tpointer (Tnamed "TrackpadFinger"))
       [Index i; Member "state"] = true.
Proof. repeat split. Qed.

(** C9: in the callback variant the registered callback receives the finger
    array through a pointer to const [TrackpadFinger]: whatever lvalue is
    formed from that parameter ([*fingers], [fingers[i]], [fingers[i].x],
    [fingers->state], ...), it is const-qualified (as the record and its
    members are) or ill-typed, so no assignment through the parameter to a
    delivered record is accepted. *)
Theorem callback_cannot_modify_delivered_records :
  plain_typedefs (contents trackpad_lib_h)
    = [("TrackpadCallback", TrackpadCallback_type)]
  /\ callback_result TrackpadCallback_type = Some Tvoid
  /\ callback_params TrackpadCallback_type
     = [("nFingers", Tint);
        ("fingers", Tpointer (Tconst (Tnamed "TrackpadFinger")))]
  /\ (forall i : Z,
        lvalue_type trackpad_lib_h
          (Tpointer (Tconst (Tnamed "TrackpadFinger"))) [Index i]
        = Some (Tconst (Tnamed "TrackpadFinger"))
        /\ lvalue_type trackpad_lib_h
             (Tpointer (Tconst (Tnamed "TrackpadFinger"))) [Index i; Member "x"]
           = Some (Tconst Tfloat)
        /\ lvalue_type trackpad_lib_h
             (Tpointer (Tconst (Tnamed "TrackpadFinger"))) [Deref; Member "state"]
           = Some (Tconst Tint))
  /\ (forall (a : access) (rest : list access),
        modifiable trackpad_lib_h
          (Tpointer (Tconst (Tnamed "TrackpadFinger"))) (a :: rest) = false).
Proof.
  do 3 (split; [ reflexivity | ]).
  split; [ intros i; repeat split | ].
  intros a rest. unfold modifiable.
  destruct (lvalue_type trackpad_lib_h
              (Tpointer (Tconst (Tnamed "TrackpadFinger"))) (a :: rest))
    as [u | ] eqn:Hp; [ | reflexivity ].
  simpl in Hp.
  assert (Hu : is_const u = true).
  { destruct a as [ | i | f ]; simpl in Hp; try discriminate;
      apply (frozen_path rest (Tconst (Tnamed "TrackpadFinger")) u);
      solve [ reflexivity | exact Hp ]. }
  rewrite Hu. reflexivity.
Qed.

(** ** The two surfaces in one translation unit *)

Lemma declare_function_macros (r : ctype) (n : string) (a : paramlist)
                              (u : unit_state) :
  macros (declare_function r n a u) = macros u.
Proof.
  unfold declare_function.
  destruct (bound n (symbols u)) as [[fs | t | r' a'] | ]; try reflexivity.
  destruct (compatible_functions r' a' r a); reflexivity.
Qed.

(** Processing a declaration defines no macro. *)
Lemma declare_macros (d : documented) (u : unit_state) :
  macros (declare d u) = macros u.
Proof.
  unfold declare. destruct (decl d) as [ms n | t n | r n a | r n a b].
  - destruct (bound n (symbols u)); reflexivity.
  - destruct (bound n (symbols u)) as [[fs | t' | r' a'] | ]; try reflexivity.
    destruct (ctype_eqb t' t); reflexivity.
  - apply declare_function_macros.
  - apply declare_function_macros.
Qed.

Lemma declarations_macros (ds : list documented) :
  forall u, macros (fold_left (fun st d => declare d st) ds u) = macros u.
Proof.
  induction ds as [| d ds IH]; intros u; simpl.
  - reflexivity.
  - rewrite IH. apply declare_macros.
Qed.

Lemma seen_app (g : string) (ms ms' : list string) :
  existsb (String.eqb g) (ms ++ ms') =
  existsb (String.eqb g) ms || existsb (String.eqb g) ms'.
Proof. apply existsb_app. Qed.

(** Once its guard is defined a header stays included, whatever is included
    afterwards. *)
Lemma include_keeps_seen (g : string) (u : unit_state) (h : header) :
  seen g u = true -> seen g (include u h) = true.
Proof.
  unfold seen, include. intros Hg.
  destruct (existsb (String.eqb (guard h)) (macros u)); [ exact Hg | ].
  rewrite declarations_macros. simpl. rewrite seen_app, Hg. reflexivity.
Qed.

(** Including a header defines its guard. *)
Lemma include_sees (u : unit_state) (h : header) :
  seen (guard h) (include u h) = true.
Proof.
  unfold seen, include.
  destruct (existsb (String.eqb (guard h)) (macros u)) eqn:Hg; [ exact Hg | ].
  rewrite declarations_macros. simpl. rewrite seen_app. simpl.
  rewrite String.eqb_refl. apply orb_true_iff. right. reflexivity.
Qed.

(** The five states are closed under including either header. *)
Lemma reached_include (u : unit_state) (h : header) :
  reached u -> In h surfaces -> reached (include u h).
Proof.
  unfold reached. intros Hu Hh.
  destruct Hh as [<- | [<- | []]];
    destruct Hu as [-> | [-> | [-> | [-> | ->]]]];
    first [ left; vm_compute; reflexivity
          | right; left; vm_compute; reflexivity
          | right; right; left; vm_compute; reflexivity
          | right; right; right; left; vm_compute; reflexivity
          | right; right; right; right; vm_compute; reflexivity ].
Qed.

(** In a reached state with both guards defined the two diagnostics stand. *)
Lemma reached_both_conflict (u : unit_state) :
  reached u ->
  seen (guard lovetrack_lib_h) u = true ->
  seen (guard trackpad_lib_h) u = true ->
  diagnostics u =
    [Redefinition "TrackpadFinger"; ConflictingTypes "trackpad_start"].
Proof.
  unfold reached.
  intros [-> | [-> | [-> | [-> | ->]]]] HL HT;
    first [ vm_compute in HL; discriminate
          | vm_compute in HT; discriminate
          | reflexivity ].
Qed.

Lemma bind_from (hs : list header) :
  forall u,
    reached u ->
    (forall h, In h hs -> In h surfaces) ->
    In lovetrack_lib_h hs \/ seen (guard lovetrack_lib_h) u = true ->
    In trackpad_lib_h hs \/ seen (guard trackpad_lib_h) u = true ->
    diagnostics (fold_left include hs u) =
      [Redefinition "TrackpadFinger"; ConflictingTypes "trackpad_start"].
Proof.
  induction hs as [| h hs IH]; intros u Hu Hall HL HT; simpl.
  - destruct HL as [[] | HL]. destruct HT as [[] | HT].
    now apply reached_both_conflict.
  - assert (Hh : In h surfaces) by (apply Hall; left; reflexivity).
    apply IH.
    + now apply reached_include.
    + intros h' Hh'. apply Hall. right. exact Hh'.
    + destruct HL as [[<- | HL] | HL].
      * right. apply include_sees.
      * left. exact HL.
      * right. now apply include_keeps_seen.
    + destruct HT as [[<- | HT] | HT].
      * right. apply include_sees.
      * left. exact HT.
      * right. now apply include_keeps_seen.
Qed.

(** The return types alone make the two start declarations incompatible,
    whatever is made of the empty parameter list. *)
Lemma int_and_void_functions_incompatible (p q : paramlist) :
  compatible_functions Tint p Tvoid q = false
  /\ compatible_functions Tvoid q Tint p = false.
Proof. split; reflexivity. Qed.

(** C10: the two start operations are not interchangeable.  The polling
    [trackpad_start] is declared with an empty parameter list and returns
    [int]; the callback [trackpad_start] takes a [TrackpadCallback] and
    returns [void]; the two function types are incompatible; and a
    translation unit that includes both headers, in either order and however
    often, is rejected with conflicting types for [trackpad_start] (and a
    redefinition of [TrackpadFinger]), while each header alone is accepted. *)
Theorem start_declarations_are_incompatible :
  option_map (fun o => (op_ret o, params (op_args o)))
    (lookup lovetrack_lib_h "trackpad_start") = Some (Tint, [])
  /\ option_map (fun o => (op_ret o, params (op_args o)))
       (lookup trackpad_lib_h "trackpad_start")
     = Some (Tvoid, [("callback", Tnamed "TrackpadCallback")])
  /\ compatible_functions Tint Pnil
       Tvoid (Pcons "callback" (Tnamed "TrackpadCallback") Pnil) = false
  /\ compatible_functions
       Tvoid (Pcons "callback" (Tnamed "TrackpadCallback") Pnil)
       Tint Pnil = false
  /\ bindable [lovetrack_lib_h] = true
  /\ bindable [trackpad_lib_h] = true
  /\ (forall hs,
        (forall h, In h hs -> In h surfaces) ->
        In lovetrack_lib_h hs -> In trackpad_lib_h hs ->
        bindable hs = false
        /\ In (ConflictingTypes "trackpad_start") (diagnostics (bind_headers hs))).
Proof.
  repeat (split; [ reflexivity | ]).
  intros hs Hall HL HT.
  assert (Hd : diagnostics (bind_headers hs) =
               [Redefinition "TrackpadFinger"; ConflictingTypes "trackpad_start"]).
  { unfold bind_headers. apply bind_from.
    - left. reflexivity.
    - exact Hall.
    - left. exact HL.
    - left. exact HT. }
  unfold bindable. rewrite Hd. split; [ reflexivity | ].
  right. left. reflexivity.
Qed.

Lemma start_declarations_are_incompatible_witness :
  bindable [trackpad_lib_h; lovetrack_lib_h; trackpad_lib_h] = false
  /\ In (ConflictingTypes "trackpad_start")
        (diagnostics (bind_headers [trackpad_lib_h; lovetrack_lib_h; trackpad_lib_h])).
Proof.
  apply (proj2 (proj2 (proj2 (proj2 (proj2 (proj2
           start_declarations_are_incompatible)))))
           [trackpad_lib_h; lovetrack_lib_h; trackpad_lib_h]).
  - intros h Hh. simpl in Hh. simpl.
    destruct Hh as [<- | [<- | [<- | []]]]; auto.
  - simpl. right. left. reflexivity.
  - simpl. left. reflexivity.
Defined.

(** ** Polling *)

Section Retrieval.

Context {float : Type}.

(** The array keeps its capacity. *)
Lemma retrieve_length (touches : list (Native.TrackpadFinger float)) :
  forall fingers, length (Native.retrieve touches fingers) = length fingers.
Proof.
  induction touches as [| t ts IH]; intros [| s slots]; simpl;
    try reflexivity.
  now rewrite IH.
Qed.

(** The leading slots hold the touches, in order. *)
Lemma retrieve_firstn (touches : list (Native.TrackpadFinger float)) :
  forall fingers,
    (length touches <= length fingers)%nat ->
    firstn (length touches) (Native.retrieve touches fingers) = touches.
Proof.
  induction touches as [| t ts IH]; intros [| s slots] Hle; simpl in *;
    try reflexivity; try lia.
  rewrite IH by lia. reflexivity.
Qed.

(** The slots behind them are left as they were. *)
Lemma retrieve_skipn (touches : list (Native.TrackpadFinger float)) :
  forall fingers,
    skipn (length touches) (Native.retrieve touches fingers)
    = skipn (length touches) fingers.
Proof.
  induction touches as [| t ts IH]; intros [| s slots]; simpl;
    try reflexivity.
  apply IH.
Qed.

End Retrieval.

(** C2: [trackpad_poll] is a caller-driven retrieval into a caller-supplied
    array of capacity [max_fingers] that returns the count of touches
    currently active.  The header declares it as
    [int trackpad_poll(TrackpadFinger* fingers, int max_fingers)], documents
    [fingers] as the caller's array, [max_fingers] as the number of records
    it can hold and the result as the number of fingers currently on the
    trackpad, and the array is writable through the parameter.  The
    operation modelled from that contract returns the number of active
    touches whatever the capacity; and when the array has [max_fingers]
    slots and the touches fit, the array keeps its length, its leading slots
    hold the active touches in order and its remaining slots are unchanged. *)
Theorem trackpad_poll_retrieves_into_caller_array :
  option_map op_ret (lookup lovetrack_lib_h "trackpad_poll") = Some Tint
  /\ option_map (fun o => params (op_args o))
       (lookup lovetrack_lib_h "trackpad_poll")
     = Some [("fingers", Tpointer (Tnamed "TrackpadFinger"));
             ("max_fingers", Tint)]
  /\ option_map op_doc (lookup lovetrack_lib_h "trackpad_poll")
     = Some ["Polls for the latest trackpad data.";
             "`fingers` should be a pointer to an array of TrackpadFinger structs.";
             "`max_fingers` is the maximum number of fingers the array can hold.";
             "Returns the number of fingers currently on the trackpad."]
  /\ (forall i,
        modifiable lovetrack_lib_h (Tpointer (Tnamed "TrackpadFinger"))
          [Index i] = true)
  /\ (forall (float : Type)
             (truncated : list (Native.TrackpadFinger float) ->
                          list (Native.TrackpadFinger float) -> Z ->
                          list (Native.TrackpadFinger float))
             (active fingers : list (Native.TrackpadFinger float))
             (max_fingers : Z),
        snd (Native.trackpad_poll truncated active fingers max_fingers)
          = Z.of_nat (length active)
        /\ (Z.of_nat (length fingers) = max_fingers ->
            (length active <= length fingers)%nat ->
            length (fst (Native.trackpad_poll truncated active fingers max_fingers))
              = length fingers
            /\ firstn (length active)
                 (fst (Native.trackpad_poll truncated active fingers max_fingers))
               = active
            /\ skipn (length active)
                 (fst (Native.trackpad_poll truncated active fingers max_fingers))
               = skipn (length active) fingers)).
Proof.
  do 3 (split; [ reflexivity | ]).
  split; [ intros i; apply (polling_array_is_writable i) | ].
  intros float truncated active fingers max_fingers.
  split; [ reflexivity | ].
  intros Hcap Hfit. unfold Native.trackpad_poll. simpl fst.
  assert (Hle : (Z.of_nat (length active) <=? max_fingers)%Z = true)
    by (apply Z.leb_le; lia).
  rewrite Hle.
  split; [ apply retrieve_length | split ].
  - now apply retrieve_firstn.
  - apply retrieve_skipn.
Qed.

Lemma trackpad_poll_retrieves_into_caller_array_witness :
  let blank := Native.mkFinger Z 0%Z 0%Z 0%Z 0%Z 0%Z 0%Z 0%Z 0%Z 0%Z 0%Z in
  let touch := Native.mkFinger Z 7%Z 1%Z 2%Z 3%Z 4%Z 5%Z 6%Z 7%Z 8%Z 1%Z in
  Native.trackpad_poll (fun _ fingers _ => fingers) [touch] [blank; blank] 2%Z
    = ([touch; blank], 1%Z)
  /\ length (fst (Native.trackpad_poll (fun _ fingers _ => fingers)
                    [touch] [blank; blank] 2%Z)) = 2
  /\ firstn 1 (fst (Native.trackpad_poll (fun _ fingers _ => fingers)
                      [touch] [blank; blank] 2%Z)) = [touch]
  /\ skipn 1 (fst (Native.trackpad_poll (fun _ fingers _ => fingers)
                     [touch] [blank; blank] 2%Z)) = [blank].
Proof.
  intros blank touch.
  split; [ reflexivity | ].
  apply (proj2
           (proj2 (proj2 (proj2 (proj2 trackpad_poll_retrieves_into_caller_array)))
              Z (fun _ fingers _ => fingers) [touch] [blank; blank] 2%Z)).
  - reflexivity.
  - simpl. lia.
Defined.

(** * Further properties of the headers *)

(** ** Include guards *)


Lemma includes_keep_seen (g : string) (hs : list header) :
  forall u, seen g u = true -> seen g (fold_left include hs u) = true.
Proof.
  induction hs as [| h hs IH]; intros u Hg; simpl.
  - exact Hg.
  - apply IH. now apply include_keeps_seen.
Qed.

Lemma included_is_seen (h : header) (hs : list header) :
  forall u, In h hs -> seen (guard h) (fold_left include hs u) = true.
Proof.
  induction hs as [| a hs IH]; intros u Hin; simpl.
  - destruct Hin.
  - destruct Hin as [-> | Hin].
    + apply includes_keep_seen. apply include_sees.
    + now apply IH.
Qed.





(** ** The operation both surfaces share *)

Lemma reached_includes (hs : list header) :
  forall u,
    reached u -> (forall h, In h hs -> In h surfaces) ->
    reached (fold_left include hs u).
Proof.
  induction hs as [| h hs IH]; intros u Hu Hall; simpl.
  - exact Hu.
  - apply IH.
    + apply reached_include; [ exact Hu | apply Hall; left; reflexivity ].
    + intros h' Hh'. apply Hall. right. exact Hh'.
Qed.

(** X2: [trackpad_stop] is the operation the two surfaces share.  Both
    headers declare it with the same comment, result type [void] and empty
    parameter list; and whatever headers of the repository a unit includes,
    in whatever order and however often, [trackpad_stop] ends up bound to
    that one type and no diagnostic about it is raised: the diagnostics, if
    any, are the ones about [TrackpadFinger] and [trackpad_start]. *)
Theorem trackpad_stop_is_shared :
  lookup lovetrack_lib_h "trackpad_stop" = lookup trackpad_lib_h "trackpad_stop"
  /\ option_map (fun o => (op_ret o, params (op_args o)))
       (lookup lovetrack_lib_h "trackpad_stop") = Some (Tvoid, [])
  /\ (forall hs h,
        (forall h', In h' hs -> In h' surfaces) ->
        In h hs ->
        bound "trackpad_stop" (symbols (bind_headers hs))
          = Some (BoundFunction Tvoid Pnil)
        /\ (diagnostics (bind_headers hs) = []
            \/ diagnostics (bind_headers hs) =
                 [Redefinition "TrackpadFinger";
                  ConflictingTypes "trackpad_start"])).
Proof.
  split; [ reflexivity | split; [ reflexivity | ] ].
  intros hs h Hall Hin.
  assert (Hr : reached (bind_headers hs)).
  { unfold bind_headers. apply reached_includes; [ left; reflexivity | exact Hall ]. }
  assert (Hs : seen (guard h) (bind_headers hs) = true).
  { unfold bind_headers. now apply included_is_seen. }
  destruct Hr as [Hr | [Hr | [Hr | [Hr | Hr]]]]; rewrite Hr in *.
  - discriminate Hs.
  - split; [ reflexivity | left; reflexivity ].
  - split; [ reflexivity | left; reflexivity ].
  - split; [ reflexivity | right; reflexivity ].
  - split; [ reflexivity | right; reflexivity ].
Qed.

Lemma trackpad_stop_is_shared_witness :
  bound "trackpad_stop"
    (symbols (bind_headers [lovetrack_lib_h; trackpad_lib_h; lovetrack_lib_h]))
    = Some (BoundFunction Tvoid Pnil)
  /\ (diagnostics (bind_headers [lovetrack_lib_h; trackpad_lib_h; lovetrack_lib_h])
      = []
      \/ diagnostics (bind_headers [lovetrack_lib_h; trackpad_lib_h; lovetrack_lib_h])
         = [Redefinition "TrackpadFinger"; ConflictingTypes "trackpad_start"]).
Proof.
  apply (proj2 (proj2 trackpad_stop_is_shared)
           [lovetrack_lib_h; trackpad_lib_h; lovetrack_lib_h] trackpad_lib_h).
  - intros h Hh. simpl in Hh. simpl.
    destruct Hh as [<- | [<- | [<- | []]]]; auto.
  - simpl. right. left. reflexivity.
Defined.

(** ** The fields of the touch record *)

Lemma field_type_In (f : string) (t : ctype) :
  forall fs : list (string * ctype), field_type f fs = Some t -> In (f, t) fs.
Proof.
  induction fs as [| [n u] fs IH]; simpl; intros H.
  - discriminate.
  - destruct (String.eqb n f) eqn:E.
    + apply String.eqb_eq in E. injection H as <-. subst n. left. reflexivity.
    + right. now apply IH.
Qed.

Lemma In_field_type (f : string) (t : ctype) :
  forall fs : list (string * ctype),
    NoDup (map fst fs) -> In (f, t) fs -> field_type f fs = Some t.
Proof.
  induction fs as [| [n u] fs IH]; simpl; intros Hnd Hin.
  - destruct Hin.
  - inversion Hnd as [| ? ? Hn Hnd']; subst.
    destruct Hin as [Heq | Hin].
    + injection Heq as -> ->. rewrite String.eqb_refl. reflexivity.
    + destruct (String.eqb n f) eqn:E.
      * apply String.eqb_eq in E. subst n. exfalso. apply Hn.
        apply (in_map fst) in Hin. exact Hin.
      * now apply IH.
Qed.

Lemma TrackpadFinger_names_distinct (h : header) (fs : list (string * ctype)) :
  In h surfaces -> TrackpadFinger_fields h = Some fs -> NoDup (map fst fs).
Proof.
  intros Hh Hfs.
  destruct Hh as [<- | [<- | []]]; vm_compute in Hfs; injection Hfs as <-;
    simpl; repeat (constructor; [ simpl; intuition discriminate | ]);
    constructor.
Qed.

(** X3: the touch record is well formed in both headers: it has ten fields
    with pairwise distinct names, so member lookup is unambiguous: looking a
    name up yields a type exactly when the struct declares a field of that
    name and type, and a name the struct does not declare is not found. *)
Theorem TrackpadFinger_member_lookup :
  forall h fs,
    In h surfaces -> TrackpadFinger_fields h = Some fs ->
    length fs = 10
    /\ NoDup (map fst fs)
    /\ (forall f t, field_type f fs = Some t <-> In (f, t) fs)
    /\ (forall f, ~ In f (map fst fs) -> field_type f fs = None).
Proof.
  intros h fs Hh Hfs.
  assert (Hnd : NoDup (map fst fs)) by (now apply (TrackpadFinger_names_distinct h)).
  split; [ | split; [ exact Hnd | split ] ].
  - destruct Hh as [<- | [<- | []]]; vm_compute in Hfs; injection Hfs as <-;
      reflexivity.
  - intros f t. split.
    + apply field_type_In.
    + now apply In_field_type.
  - intros f Hf. destruct (field_type f fs) as [t | ] eqn:E; [ | reflexivity ].
    exfalso. apply Hf. apply field_type_In in E.
    apply (in_map fst) in E. exact E.
Qed.

Lemma TrackpadFinger_member_lookup_witness :
  exists fs,
    TrackpadFinger_fields trackpad_lib_h = Some fs
    /\ length fs = 10
    /\ field_type "major_axis" fs = Some Tfloat
    /\ field_type "pressure" fs = None.
Proof.
  eexists. split; [ reflexivity | ].
  match goal with |- length ?fs = _ /\ _ =>
    pose proof (TrackpadFinger_member_lookup trackpad_lib_h fs
                  (or_intror (or_introl eq_refl)) eq_refl)
      as [Hlen [_ [Hiff Hnone]]];
    split; [ exact Hlen | split ];
    [ apply Hiff; simpl; do 6 right; left; reflexivity
    | apply Hnone; simpl; intuition discriminate ]
  end.
Defined.

(** ** Reading and writing the records through the parameters *)

(** X4: through the [fingers] parameter of [trackpad_poll] and
    [trackpad_reset] (a pointer to non-const [TrackpadFinger]) every declared
    field of every record of the caller's array is an assignable lvalue of
    the field's declared type, written [fingers[i].f] or [fingers->f]; a
    member the struct does not declare is ill-typed. *)
Theorem polling_array_every_field_assignable :
  map (fun o => field_type "fingers" (params (op_args o)))
      (filter touches_fingers (operations lovetrack_lib_h))
    = [Some (Tpointer (Tnamed "TrackpadFinger"));
       Some (Tpointer (Tnamed "TrackpadFinger"))]
  /\ (forall fs i f t,
        TrackpadFinger_fields lovetrack_lib_h = Some fs -> In (f, t) fs ->
        lvalue_type lovetrack_lib_h (Tpointer (Tnamed "TrackpadFinger"))
          [Index i; Member f] = Some t
        /\ modifiable lovetrack_lib_h (Tpointer (Tnamed "TrackpadFinger"))
             [Index i; Member f] = true
        /\ modifiable lovetrack_lib_h (Tpointer (Tnamed "TrackpadFinger"))
             [Deref; Member f] = true)
  /\ (forall fs i f,
        TrackpadFinger_fields lovetrack_lib_h = Some fs ->
        field_type f fs = None ->
        lvalue_type lovetrack_lib_h (Tpointer (Tnamed "TrackpadFinger"))
          [Index i; Member f] = None).
Proof.
  split; [ reflexivity | split ].
  - intros fs i f t Hfs Hin.
    vm_compute in Hfs. injection Hfs as <-.
    simpl in Hin.
    repeat (destruct Hin as [Hin | Hin];
            [ injection Hin as <- <-; repeat split | ]).
    contradiction.
  - intros fs i f Hfs Hnone.
    unfold TrackpadFinger_fields in Hfs.
    unfold lvalue_type, access_type. cbn [unqualified].
    rewrite Hfs, Hnone. reflexivity.
Qed.

Lemma polling_array_every_field_assignable_witness :
  exists fs,
    TrackpadFinger_fields lovetrack_lib_h = Some fs
    /\ In ("vy", Tfloat) fs
    /\ lvalue_type lovetrack_lib_h (Tpointer (Tnamed "TrackpadFinger"))
         [Index 3%Z; Member "vy"] = Some Tfloat
    /\ modifiable lovetrack_lib_h (Tpointer (Tnamed "TrackpadFinger"))
         [Index 3%Z; Member "vy"] = true
    /\ modifiable lovetrack_lib_h (Tpointer (Tnamed "TrackpadFinger"))
         [Deref; Member "vy"] = true.
Proof.
  eexists. split; [ reflexivity | ].
  match goal with |- In ?p ?fs /\ _ =>
    assert (Hin : In p fs) by (simpl; do 4 right; left; reflexivity);
    split; [ exact Hin | ];
    exact (proj1 (proj2 polling_array_every_field_assignable)
             fs 3%Z "vy" Tfloat eq_refl Hin)
  end.
Defined.

(** X5: through the [fingers] parameter of a [TrackpadCallback] (a pointer
    to const [TrackpadFinger]) every declared field of every delivered record
    can be read: [fingers[i].f] and [fingers->f] are well typed and have the
    field's declared type with [const] added, which is why none of them can
    be assigned to. *)
Theorem callback_can_read_every_field :
  forall fs i f t,
    TrackpadFinger_fields trackpad_lib_h = Some fs -> In (f, t) fs ->
    field_type "fingers" (callback_params TrackpadCallback_type)
      = Some (Tpointer (Tconst (Tnamed "TrackpadFinger")))
    /\ lvalue_type trackpad_lib_h (Tpointer (Tconst (Tnamed "TrackpadFinger")))
         [Index i; Member f] = Some (Tconst t)
    /\ lvalue_type trackpad_lib_h (Tpointer (Tconst (Tnamed "TrackpadFinger")))
         [Deref; Member f] = Some (Tconst t)
    /\ modifiable trackpad_lib_h (Tpointer (Tconst (Tnamed "TrackpadFinger")))
         [Index i; Member f] = false.
Proof.
  intros fs i f t Hfs Hin.
  vm_compute in Hfs. injection Hfs as <-.
  simpl in Hin.
  repeat (destruct Hin as [Hin | Hin];
          [ injection Hin as <- <-; repeat split | ]).
  contradiction.
Qed.

Lemma callback_can_read_every_field_witness :
  exists fs,
    TrackpadFinger_fields trackpad_lib_h = Some fs
    /\ In ("state", Tint) fs
    /\ lvalue_type trackpad_lib_h (Tpointer (Tconst (Tnamed "TrackpadFinger")))
         [Index 0%Z; Member "state"] = Some (Tconst Tint).
Proof.
  eexists. split; [ reflexivity | ].
  match goal with |- In ?p ?fs /\ _ =>
    assert (Hin : In p fs) by (simpl; do 9 right; left; reflexivity);
    split; [ exact Hin | ];
    exact (proj1 (proj2 (callback_can_read_every_field
                           fs 0%Z "state" Tint eq_refl Hin)))
  end.
Defined.

(** ** Declaration before use *)

Lemma known_app (n : string) (ns ms : list string) :
  known n (ns ++ ms) = known n ns || known n ms.
Proof. unfold known. apply existsb_app. Qed.

Lemma unknown_filter_more (l ns ns' : list string) :
  (forall n, known n ns = true -> known n ns' = true) ->
  filter (fun n => negb (known n ns)) l = [] ->
  filter (fun n => negb (known n ns')) l = [].
Proof.
  intros Hsub. induction l as [| n l IH]; simpl; intros H.
  - reflexivity.
  - destruct (known n ns) eqn:E; simpl in H; [ | discriminate ].
    rewrite (Hsub n E). simpl. now apply IH.
Qed.

(** Names declared beforehand never make a name undeclared. *)
Lemma undeclared_more (ds : list documented) :
  forall ns ns',
    (forall n, known n ns = true -> known n ns' = true) ->
    undeclared ns ds = [] -> undeclared ns' ds = [].
Proof.
  induction ds as [| d ds IH]; simpl; intros ns ns' Hsub H.
  - reflexivity.
  - apply app_eq_nil in H as [Hd Hrest].
    rewrite (unknown_filter_more _ ns ns' Hsub Hd). simpl.
    apply (IH (ns ++ introduces (decl d))%list); [ | exact Hrest ].
    intros n. rewrite !known_app. intros Hn.
    apply orb_true_iff in Hn as [Hn | Hn]; apply orb_true_iff.
    + left. now apply Hsub.
    + right. exact Hn.
Qed.

(** X6: each header stands on its own.  Every type name a declaration
    refers to ([TrackpadFinger] in [trackpad_poll], [trackpad_reset] and the
    callback typedef, [TrackpadCallback] in the callback [trackpad_start]) is
    declared earlier in the same header, so no name is undeclared whatever
    was or was not declared before the header is read.  The order matters:
    without the struct declaration, or read bottom-up, the callback header
    would use names before their declaration. *)
Theorem headers_declare_before_use :
  (forall h names, In h surfaces -> undeclared names (contents h) = [])
  /\ flat_map (fun d => uses (decl d)) (contents lovetrack_lib_h)
     = ["TrackpadFinger"; "TrackpadFinger"]
  /\ flat_map (fun d => uses (decl d)) (contents trackpad_lib_h)
     = ["TrackpadFinger"; "TrackpadCallback"]
  /\ undeclared [] (tl (contents trackpad_lib_h)) = ["TrackpadFinger"]
  /\ undeclared [] (rev (contents trackpad_lib_h))
     = ["TrackpadCallback"; "TrackpadFinger"].
Proof.
  split; [ | repeat split ].
  intros h names Hh.
  apply (undeclared_more (contents h) [] names).
  - intros n Hn. discriminate Hn.
  - destruct Hh as [<- | [<- | []]]; reflexivity.
Qed.

Lemma headers_declare_before_use_witness :
  undeclared ["TrackpadFinger"; "size_t"] (contents trackpad_lib_h) = [].
Proof.
  apply (proj1 headers_declare_before_use trackpad_lib_h
           ["TrackpadFinger"; "size_t"]).
  simpl. right. left. reflexivity.
Defined.
